(** * k8s_log: resolving a Kubernetes resource to the Pod whose log is fetched

    A shallow embedding of [plugins/modules/k8s_log.py]:
    [KubernetesLogModule.extract_selectors] (the selector extractor),
    [KubernetesLogModule.execute_module] (the resource resolver) and
    [KubernetesLogModule.argspec] (the options of the module).

    Python values are modelled as follows.
    - [str] is [string]; an optional parameter ([None] when not given) is
      [option string].
    - [self.fail(msg=...)] ends the invocation with a failure message; an
      exception raised by the interpreter or by a collaborator ends it too.
      Both are the [Err] case of [outcome].
    - The cluster (API client, descriptor lookup, get, list, log fetch) is a
      record of functions; [execute_module] logs every call it makes to it. *)

From Stdlib Require Import String Ascii List Bool.
Import ListNotations.
Open Scope list_scope.
Open Scope string_scope.

(** ** Python strings *)

Module Py.

(** [bool(s)] for a [str]. *)
Definition truthy (s : string) : bool := negb (s =? "").

(** [bool(o)] for a parameter that is [None] or a [str]. *)
Definition truthy_opt (o : option string) : bool :=
  match o with
  | Some s => truthy s
  | None => false
  end.

(** ['{0}'.format(o)] for a parameter that is [None] or a [str]. *)
Definition format_opt (o : option string) : string :=
  match o with
  | Some s => s
  | None => "None"
  end.

(** [sep.join(l)]. *)
Definition join (sep : string) (l : list string) : string := String.concat sep l.

Definition lower_ascii (c : ascii) : ascii :=
  let n := nat_of_ascii c in
  if Nat.leb 65 n && Nat.leb n 90 then ascii_of_nat (n + 32) else c.

(** [s.lower()], on ASCII letters. *)
Fixpoint lower (s : string) : string :=
  match s with
  | EmptyString => EmptyString
  | String c s' => String (lower_ascii c) (lower s')
  end.

Definition newline : ascii := ascii_of_nat 10.

(** [s.split('\n')]: never empty, one more element than [s] has newlines. *)
Fixpoint split_newline (s : string) : list string :=
  match s with
  | EmptyString => [EmptyString]
  | String c s' =>
      if Ascii.eqb c newline then EmptyString :: split_newline s'
      else match split_newline s' with
           | line :: rest => String c line :: rest
           | [] => [String c EmptyString]
           end
  end.

(** [x in l] for a list (or the keys of a dict) of [str]. *)
Definition contains (x : string) (l : list string) : bool :=
  existsb (String.eqb x) l.

End Py.

(** ** Failures *)

(** Exceptions the interpreter raises on the paths of this module, and
    [ApiException] for whatever a collaborator raises. *)
Inductive exception : Type :=
| TypeError
| ValueError
| AttributeError
| ApiException (msg : string).

Inductive error : Type :=
| FailJson (msg : string)
| Raise (e : exception).

Inductive outcome (A : Type) : Type :=
| Ok (a : A)
| Err (e : error).

Arguments Ok {A} a.
Arguments Err {A} e.

(** Modelled from the spec: [KubernetesAnsibleModule.fail] is inherited from
    [module_utils/common.py]; every error is terminal for the invocation and
    is surfaced as a single failure result carrying the message. *)
Definition fail {A : Type} (msg : string) : outcome A := Err (FailJson msg).

Definition obind {A B : Type} (m : outcome A) (f : A -> outcome B) : outcome B :=
  match m with
  | Ok a => f a
  | Err e => Err e
  end.

(** ** Resource instances *)

(** One entry of [matchExpressions]. *)
Record Expression : Type := {
  key : string;
  operator : string;
  values : list string
}.

(** The value of a field of a selector object. The client wraps every JSON
    object in a [ResourceField], which [dict(...)] turns back into its
    entries; a JSON array is a Python list. *)
Inductive field : Type :=
| Str (s : string)
| Mapping (m : list (string * string))
| Sequence (es : list Expression).

(** [instance.spec.selector]: the fields of the object in iteration order. *)
Definition Selector : Type := list (string * field).

Record Spec : Type := {
  selector : option Selector
}.

Record ResourceInstance : Type := {
  group : option string;
  apiVersion : string;
  kind : string;
  spec : option Spec
}.

(** [obj.name]: the field called [name], [None] when there is none. *)
Fixpoint getattr (obj : Selector) (name : string) : option field :=
  match obj with
  | [] => None
  | (k, v) :: rest => if k =? name then Some v else getattr rest name
  end.

(** [bool(v)] of an attribute. A [ResourceField] defines neither [__bool__]
    nor [__len__], so it is true even without entries; a list and a [str]
    are true when not empty; a missing attribute is [None]. *)
Definition truthy (v : option field) : bool :=
  match v with
  | None => false
  | Some (Str s) => Py.truthy s
  | Some (Mapping _) => true
  | Some (Sequence es) => negb (Nat.eqb (length es) 0)
  end.

Section Extractor.

(** [str(v)] of a field that is not a [str] (the client's [pformat]
    rendering, which this module does not define). *)
Variable pformat : field -> string.

(** ['{0}={1}'.format(k, v)]. *)
Definition format_entry (kv : string * field) : string :=
  let (k, v) := kv in
  k ++ "=" ++ match v with
              | Str s => s
              | other => pformat other
              end.

Definition format_label (kv : string * string) : string :=
  let (k, v) := kv in k ++ "=" ++ v.

(** [dict(v).items()] for a true attribute: a mapping gives its entries,
    a [str] or a list of three-field objects is no sequence of pairs. *)
Definition dict_items (v : field) : outcome (list (string * string)) :=
  match v with
  | Mapping m => Ok m
  | Str _ => Err (Raise ValueError)
  | Sequence _ => Err (Raise ValueError)
  end.

(** The body of the loop over [matchExpressions]: the clause appended for
    one expression, or the failure. *)
Definition expression_clause (expression : Expression) : outcome string :=
  let op := operator expression in
  if op =? "Exists" then
    Ok (key expression)
  else if op =? "DoesNotExist" then
    Ok ("!" ++ key expression)
  else if Py.contains op ["In"; "NotIn"] then
    Ok (key expression ++ " " ++ Py.lower op ++ " "
        ++ ("(" ++ Py.join ", " (values expression) ++ ")"))
  else
    fail ("The k8s_log module does not support the " ++ Py.lower op
          ++ " matchExpression operator").

(** [for expression in ...: selectors.append(...)]. *)
Fixpoint for_expressions (es : list Expression) (selectors : list string)
  : outcome (list string) :=
  match es with
  | [] => Ok selectors
  | expression :: rest =>
      obind (expression_clause expression)
            (fun clause => for_expressions rest (selectors ++ [clause]))
  end.

(** [for expression in v] for a true attribute [v]: the elements of a
    [str] or of a [ResourceField] with entries have no [operator]. *)
Definition iter_expressions (v : field) (selectors : list string)
  : outcome (list string) :=
  match v with
  | Sequence es => for_expressions es selectors
  | Mapping [] => Ok selectors
  | Mapping (_ :: _) => Err (Raise AttributeError)
  | Str _ => Err (Raise AttributeError)
  end.

Definition extract_selectors (instance : ResourceInstance) : outcome (list string) :=
  match spec instance with
  | None => Err (Raise AttributeError)
  | Some sp =>
      match selector sp with
      | None =>
          (* '/'.join(instance.group, instance.apiVersion): str.join
             takes one argument, so the message is never built *)
          Err (Raise TypeError)
      | Some sel =>
          let matchLabels := getattr sel "matchLabels" in
          let matchExpressions := getattr sel "matchExpressions" in
          if negb (truthy matchLabels || truthy matchExpressions) then
            Ok (map format_entry sel)
          else
            obind (if truthy matchLabels then
                     match matchLabels with
                     | Some v => obind (dict_items v) (fun m => Ok (map format_label m))
                     | None => Ok []
                     end
                   else Ok [])
                  (fun selectors =>
                     if truthy matchExpressions then
                       match matchExpressions with
                       | Some v => iter_expressions v selectors
                       | None => Ok selectors
                       end
                     else Ok selectors)
      end
  end.

End Extractor.

(** ** The cluster and the calls made to it *)

(** A resource descriptor, as the discovery collaborator returns it;
    [subresources] holds the names of the subresources it exposes. *)
Record Resource : Type := {
  resource_api_version : string;
  resource_kind : string;
  subresources : list string
}.

(** An item of a Pod list: [item.metadata.name]. *)
Record Item : Type := {
  metadata_name : string
}.

(** The collaborators. [Resource.get] is called in two ways, by name and by
    label selector; they are kept apart as [get] and [list_pods]. The
    argument [container] of [log_get] is the [query_params] entry. *)
Record Cluster : Type := {
  get_api_client : outcome unit;
  find_resource : string -> string -> outcome Resource;
  get : Resource -> option string -> option string -> outcome ResourceInstance;
  list_pods : Resource -> option string -> string -> outcome (list Item);
  log_get : Resource -> option string -> option string -> option string -> outcome string
}.

Inductive call : Type :=
| GetApiClient
| FindResource (kind api_version : string)
| Get (resource : Resource) (name namespace : option string)
| ListPods (resource : Resource) (namespace : option string) (label_selector : string)
| LogGet (resource : Resource) (name namespace container : option string).

Definition is_get (c : call) : bool :=
  match c with Get _ _ _ => true | _ => false end.

Definition is_list (c : call) : bool :=
  match c with ListPods _ _ _ => true | _ => false end.

Definition is_log_fetch (c : call) : bool :=
  match c with LogGet _ _ _ _ => true | _ => false end.

Definition count (p : call -> bool) (trace : list call) : nat :=
  length (filter p trace).

(** A run: the calls made so far, in order, and how it went on. *)
Definition run (A : Type) : Type := list call * outcome A.

Definition ret {A : Type} (a : A) : run A := ([], Ok a).

Definition bind {A B : Type} (m : run A) (f : A -> run B) : run B :=
  match m with
  | (calls, Ok a) => let (calls', r) := f a in ((calls ++ calls')%list, r)
  | (calls, Err e) => (calls, Err e)
  end.

(** A call to a collaborator: it is logged, and its failure ends the run. *)
Definition perform {A : Type} (c : call) (r : outcome A) : run A := ([c], r).

(** A step that makes no call. *)
Definition lift {A : Type} (r : outcome A) : run A := ([], r).

Declare Scope run_scope.
Delimit Scope run_scope with run.
Notation "x <- m ;; k" := (bind m (fun x => k))
  (at level 100, m at next level, right associativity) : run_scope.
Notation "' p <- m ;; k" := (bind m (fun x => match x with p => k end))
  (at level 100, p pattern, m at next level, right associativity) : run_scope.

(** ** Parameters and result *)

Module Params.
(** [self.params]; the argspec gives [kind] the default [Pod],
    [api_version] the default [v1] and [label_selectors] the default []. *)
Record t : Type := {
  kind : string;
  api_version : string;
  name : option string;
  namespace : option string;
  container : option string;
  label_selectors : list string
}.
End Params.

(** The arguments of [exit_json]. *)
Record ExitJson : Type := {
  changed : bool;
  log : string;
  log_lines : list string
}.

Section Resolver.

Variable pformat : field -> string.
Variable cluster : Cluster.

Definition execute_module (params : Params.t) : run ExitJson :=
  let name := Params.name params in
  let label_selector := Py.join "," (Params.label_selectors params) in
  if Py.truthy_opt name && Py.truthy label_selector then
    lift (fail "Only one of name or label_selectors can be provided")
  else (
    _ <- perform GetApiClient (get_api_client cluster) ;;
    resource <- perform (FindResource (Params.kind params) (Params.api_version params))
                        (find_resource cluster (Params.kind params) (Params.api_version params)) ;;
    v1_pods <- perform (FindResource "Pod" "v1") (find_resource cluster "Pod" "v1") ;;
    ' (label_selector, resource) <-
      (if negb (Py.contains "log" (subresources resource)) then
         if negb (Py.truthy_opt (Params.name params)) then
           lift (fail "name must be provided for resources that do not support the log subresource")
         else (
           instance <- perform (Get resource (Params.name params) (Params.namespace params))
                               (get cluster resource (Params.name params) (Params.namespace params)) ;;
           selectors <- lift (extract_selectors pformat instance) ;;
           ret (Py.join "," selectors, v1_pods))
       else ret (label_selector, resource)) ;;
    ' (name, resource) <-
      (if Py.truthy label_selector then (
         instances <- perform (ListPods v1_pods (Params.namespace params) label_selector)
                              (list_pods cluster v1_pods (Params.namespace params) label_selector) ;;
         match instances with
         | [] =>
             lift (fail ("No pods in namespace " ++ Py.format_opt (Params.namespace params)
                         ++ " matched selector " ++ label_selector))
         | first :: _ => ret (Some (metadata_name first), v1_pods)
         end)
       else ret (name, resource)) ;;
    let kwargs := if Py.truthy_opt (Params.container params)
                  then Params.container params else None in
    log <- perform (LogGet resource name (Params.namespace params) kwargs)
                   (log_get cluster resource name (Params.namespace params) kwargs) ;;
    ret {| changed := false; log := log; log_lines := Py.split_newline log |}
  )%run.

End Resolver.

(** ** Vocabulary of the statements *)

(** What [expression_clause] appends for each expression of a list. *)
Definition clauses (es : list Expression) (cs : list string) : Prop :=
  Forall2 (fun e c => expression_clause e = Ok c) es cs.

(** The operators the loop has a branch for. *)
Definition supported (op : string) : bool :=
  Py.contains op ["Exists"; "DoesNotExist"; "In"; "NotIn"].

(** A selector whose [matchLabels], when there, is a mapping and whose
    [matchExpressions], when there, is a list of expressions. *)
Definition structured (sel : Selector)
  (matchLabels : option (list (string * string)))
  (matchExpressions : option (list Expression)) : Prop :=
  getattr sel "matchLabels" = option_map Mapping matchLabels
  /\ getattr sel "matchExpressions" = option_map Sequence matchExpressions.

Definition entries {A : Type} (o : option (list A)) : list A :=
  match o with
  | Some l => l
  | None => []
  end.

(** The test of the source that tells the flat style from the structured
    one: [matchLabels or matchExpressions]. *)
Definition populated (sel : Selector) : bool :=
  truthy (getattr sel "matchLabels") || truthy (getattr sel "matchExpressions").

(** An attribute that is false: missing, an empty [str] or an empty list.
    An object is true even without entries. *)
Definition falsy (v : option field) : Prop :=
  v = None \/ v = Some (Str "") \/ v = Some (Sequence []).

(** [instance.spec.selector] is the object [sel]. *)
Definition with_selector (instance : ResourceInstance) (sel : Selector) : Prop :=
  exists sp, spec instance = Some sp /\ selector sp = Some sel.

(** The label selector in force when the Pod list is reached: the caller's
    selectors, joined, for a resource with the log subresource; the clauses
    extracted from the named instance, joined, for a resource without. *)
Inductive active_selector (pformat : field -> string) (cluster : Cluster)
  (params : Params.t) : string -> Prop :=
| caller_supplied (resource : Resource) :
    find_resource cluster (Params.kind params) (Params.api_version params) = Ok resource ->
    Py.contains "log" (subresources resource) = true ->
    active_selector pformat cluster params (Py.join "," (Params.label_selectors params))
| derived (resource : Resource) (instance : ResourceInstance) (selectors : list string) :
    find_resource cluster (Params.kind params) (Params.api_version params) = Ok resource ->
    Py.contains "log" (subresources resource) = false ->
    Py.truthy_opt (Params.name params) = true ->
    get cluster resource (Params.name params) (Params.namespace params) = Ok instance ->
    extract_selectors pformat instance = Ok selectors ->
    active_selector pformat cluster params (Py.join "," selectors).

(** The check at the head of [execute_module] lets the invocation through. *)
Definition validated (params : Params.t) : Prop :=
  Py.truthy_opt (Params.name params)
  && Py.truthy (Py.join "," (Params.label_selectors params)) = false.

(** The text [hello\nworld]. *)
Definition hello_world : string := "hello" ++ String Py.newline "world".

(** ** A cluster to run the resolver on *)

Definition v1_pod : Resource :=
  {| resource_api_version := "v1"; resource_kind := "Pod";
     subresources := ["log"; "status"; "exec"] |}.

Definition apps_deployment : Resource :=
  {| resource_api_version := "apps/v1"; resource_kind := "Deployment";
     subresources := ["scale"; "status"] |}.

Definition openshift_build : Resource :=
  {| resource_api_version := "build.openshift.io/v1"; resource_kind := "Build";
     subresources := ["clone"; "log"] |}.

Definition example_deployment : ResourceInstance :=
  {| group := None; apiVersion := "apps/v1"; kind := "Deployment";
     spec := Some {| selector := Some [("app", Str "example")] |} |}.

(** Pods and Deployments are known; the Deployment [example] selects
    [app=example], which matches the Pod [example-1abcd] in [testing] and
    nothing elsewhere; every log is [hello\nworld]. *)
Definition example_cluster : Cluster :=
  {| get_api_client := Ok tt;
     find_resource := fun kind api_version =>
       if kind =? "Pod" then Ok v1_pod
       else if kind =? "Deployment" then Ok apps_deployment
       else fail "Failed to find exact match";
     get := fun _ _ _ => Ok example_deployment;
     list_pods := fun _ namespace label_selector =>
       if Py.format_opt namespace =? "testing"
       then if label_selector =? "app=example"
            then Ok [{| metadata_name := "example-1abcd" |}]
            else Ok []
       else Ok [];
     log_get := fun _ _ _ _ => Ok hello_world |}.

(** A cluster that serves Builds, which have the log subresource, and no
    Pods. *)
Definition podless_cluster : Cluster :=
  {| get_api_client := Ok tt;
     find_resource := fun kind api_version =>
       if kind =? "Build" then Ok openshift_build
       else fail "Failed to find exact match";
     get := fun _ _ _ => Err (Raise (ApiException "404"));
     list_pods := fun _ _ _ => Ok [];
     log_get := fun _ _ _ _ => Ok hello_world |}.

(** ** The argument specification *)

(** A value in the specification of an option. *)
Inductive argvalue : Type :=
| AStr (s : string)
| ABool (b : bool)
| AList (l : list string).

(** A Python dict with [str] keys: its items in insertion order. *)
Definition dict (V : Type) : Type := list (string * V).

(** [d.get(k)]. *)
Fixpoint dict_get {V : Type} (d : dict V) (k : string) : option V :=
  match d with
  | [] => None
  | (k', v) :: rest => if k' =? k then Some v else dict_get rest k
  end.

(** [d[k] = v]: the value of an existing key is replaced where it stands, a
    new key goes to the end. *)
Fixpoint setitem {V : Type} (d : dict V) (k : string) (v : V) : dict V :=
  match d with
  | [] => [(k, v)]
  | (k', v') :: rest =>
      if k' =? k then (k', v) :: rest else (k', v') :: setitem rest k v
  end.

(** [d.update(other)]. *)
Definition update {V : Type} (d other : dict V) : dict V :=
  fold_left (fun acc kv => setitem acc (fst kv) (snd kv)) other d.

(** The options the module adds to the shared ones. *)
Definition module_options : dict (dict argvalue) :=
  [("kind", [("default", AStr "Pod")]);
   ("api_version", [("default", AStr "v1"); ("aliases", AList ["api"; "version"])]);
   ("name", []);
   ("namespace", []);
   ("container", []);
   ("label_selectors",
    [("type", AStr "list"); ("elements", AStr "str"); ("default", AList [])])].

Section Argspec.

(** [AUTH_ARG_SPEC] of [module_utils/common.py], which this module imports:
    the options shared by the modules of the collection. *)
Variable AUTH_ARG_SPEC : dict (dict argvalue).

(** The property [argspec]: a copy of the shared options, updated with the
    module's. *)
Definition argspec : dict (dict argvalue) :=
  let args := AUTH_ARG_SPEC in
  update args module_options.

End Argspec.

(** ** Vocabulary of the further statements *)

(** [s.count(c)] for a character [c]. *)
Fixpoint occurrences (c : ascii) (s : string) : nat :=
  match s with
  | EmptyString => 0
  | String c' s' => (if Ascii.eqb c' c then 1 else 0) + occurrences c s'
  end.

(** The error a collaborator answers a call with, [None] when it succeeds. *)
Definition failure_of {A : Type} (r : outcome A) : option error :=
  match r with
  | Ok _ => None
  | Err e => Some e
  end.

Definition call_failure (cluster : Cluster) (c : call) : option error :=
  match c with
  | GetApiClient => failure_of (get_api_client cluster)
  | FindResource kind api_version => failure_of (find_resource cluster kind api_version)
  | Get resource name namespace => failure_of (get cluster resource name namespace)
  | ListPods resource namespace label_selector =>
      failure_of (list_pods cluster resource namespace label_selector)
  | LogGet resource name namespace container =>
      failure_of (log_get cluster resource name namespace container)
  end.

(** Every call of a trace but the last one succeeded. *)
Fixpoint gated (cluster : Cluster) (trace : list call) : bool :=
  match trace with
  | [] => true
  | c :: rest =>
      match rest with
      | [] => true
      | _ :: _ =>
          match call_failure cluster c with
          | None => gated cluster rest
          | Some _ => false
          end
      end
  end.

(** The place of a call in the sequence of the module: the client, the
    descriptors, the get by name, the list by selector, the log. *)
Definition phase (c : call) : nat :=
  match c with
  | GetApiClient => 0
  | FindResource _ _ => 1
  | Get _ _ _ => 2
  | ListPods _ _ _ => 3
  | LogGet _ _ _ _ => 4
  end.

Fixpoint nondecreasing (l : list nat) : bool :=
  match l with
  | [] => true
  | a :: rest =>
      match rest with
      | [] => true
      | b :: _ => Nat.leb a b && nondecreasing rest
      end
  end.

(** The [query_params] of the log fetch: the container, when one is given. *)
Definition query_container (params : Params.t) : option string :=
  if Py.truthy_opt (Params.container params) then Params.container params else None.

(** A cluster whose Deployment [example] has an empty selector object and
    where the log of a Pod is not served. *)
Definition bare_deployment : ResourceInstance :=
  {| group := None; apiVersion := "apps/v1"; kind := "Deployment";
     spec := Some {| selector := Some [] |} |}.

Definition failing_cluster : Cluster :=
  {| get_api_client := Ok tt;
     find_resource := fun kind api_version =>
       if kind =? "Pod" then Ok v1_pod
       else if kind =? "Deployment" then Ok apps_deployment
       else fail "Failed to find exact match";
     get := fun _ name _ =>
       if Py.format_opt name =? "example" then Ok bare_deployment
       else Ok {| group := None; apiVersion := "apps/v1"; kind := "Deployment";
                  spec := Some {| selector := None |} |};
     list_pods := fun _ _ _ => Ok [{| metadata_name := "web-1" |}; {| metadata_name := "web-2" |}];
     log_get := fun _ name _ _ =>
       if Py.format_opt name =? "web-1" then Ok hello_world
       else Err (Raise (ApiException "pods not found")) |}.

(** * Properties *)

(** ** Strings *)

Lemma truthy_true (s : string) : Py.truthy s = true <-> s <> "".
Proof.
  unfold Py.truthy. destruct (String.eqb_spec s ""); simpl; split; congruence.
Qed.

Lemma truthy_false' (s : string) : Py.truthy s = false -> s = "".
Proof.
  unfold Py.truthy. destruct (String.eqb_spec s ""); simpl; congruence.
Qed.

Lemma append_empty (a b : string) : a ++ b = "" -> a = "" /\ b = "".
Proof.
  destruct a; simpl; [auto | discriminate].
Qed.

(** A comma-joined list is the empty string only for no selector at all and
    for the single selector [""]. *)
Lemma join_empty (l : list string) :
  Py.join "," l = "" <-> l = [] \/ l = [""].
Proof.
  unfold Py.join. split.
  - destruct l as [| x [| y rest]]; simpl; intros H.
    + now left.
    + right. now subst.
    + apply append_empty in H. destruct H as [_ H]. discriminate.
  - intros [-> | ->]; reflexivity.
Qed.

Example split_newline_empty : Py.split_newline "" = [""].
Proof. reflexivity. Qed.

Example split_newline_trailing :
  Py.split_newline ("a" ++ String Py.newline "") = ["a"; ""].
Proof. reflexivity. Qed.

Example lower_operator : Py.lower "NotIn" = "notin".
Proof. reflexivity. Qed.

(** [s.split('\n')] never returns an empty list. *)
Lemma split_newline_not_nil (s : string) : Py.split_newline s <> [].
Proof.
  induction s as [| c s IH]; simpl; [discriminate |].
  destruct (Ascii.eqb c Py.newline); [discriminate |].
  destruct (Py.split_newline s); [contradiction | discriminate].
Qed.

(** ** The loop over matchExpressions *)

Lemma for_expressions_clauses (es : list Expression) (cs : list string) :
  clauses es cs ->
  forall selectors, for_expressions es selectors = Ok (selectors ++ cs)%list.
Proof.
  induction 1 as [| e c es cs He _ IH]; intros selectors; simpl.
  - now rewrite app_nil_r.
  - rewrite He. simpl. rewrite IH. now rewrite <- app_assoc.
Qed.

Lemma for_expressions_app (pre rest : list Expression) (cpre : list string) :
  clauses pre cpre ->
  forall selectors,
    for_expressions (pre ++ rest) selectors = for_expressions rest (selectors ++ cpre)%list.
Proof.
  induction 1 as [| e c es cs He _ IH]; intros selectors; simpl.
  - now rewrite app_nil_r.
  - rewrite He. simpl. rewrite IH. now rewrite <- app_assoc.
Qed.

Lemma expression_clause_unsupported (e : Expression) :
  supported (operator e) = false ->
  expression_clause e
  = fail ("The k8s_log module does not support the " ++ Py.lower (operator e)
          ++ " matchExpression operator").
Proof.
  unfold supported, expression_clause, Py.contains. simpl.
  destruct (operator e =? "Exists"); [discriminate |].
  destruct (operator e =? "DoesNotExist"); [discriminate |].
  simpl. intros ->. reflexivity.
Qed.

Lemma expression_clause_membership (e : Expression) (op : string) :
  operator e = op ->
  op = "In" \/ op = "NotIn" ->
  expression_clause e
  = Ok (key e ++ " " ++ Py.lower op ++ " (" ++ Py.join ", " (values e) ++ ")").
Proof.
  intros Hop [-> | ->]; unfold expression_clause; rewrite Hop; reflexivity.
Qed.

Lemma expression_clause_supported (e : Expression) :
  supported (operator e) = true -> exists c, expression_clause e = Ok c.
Proof.
  unfold supported, expression_clause, Py.contains. simpl.
  destruct (operator e =? "Exists"); [eauto |].
  destruct (operator e =? "DoesNotExist"); [eauto |].
  simpl. intros ->. eauto.
Qed.

(** A list with an unsupported operator splits at the first one. *)
Lemma first_unsupported (es : list Expression) :
  existsb (fun e => negb (supported (operator e))) es = true ->
  exists pre e post cpre,
    es = (pre ++ e :: post)%list /\ clauses pre cpre /\ supported (operator e) = false.
Proof.
  induction es as [| e es IH]; simpl; [discriminate |].
  destruct (supported (operator e)) eqn:He; simpl.
  - intros H. destruct (IH H) as (pre & e' & post & cpre & -> & Hpre & He').
    destruct (expression_clause_supported e He) as [c Hc].
    exists (e :: pre), e', post, (c :: cpre). repeat split; auto.
    constructor; auto.
  - intros _. exists [], e, es, []. repeat split; auto. constructor.
Qed.

(** ** The structured branch of the extractor *)

Lemma extract_selectors_structured pformat instance sel ml mes :
  with_selector instance sel ->
  structured sel ml mes ->
  populated sel = true ->
  extract_selectors pformat instance
  = for_expressions (entries mes) (map format_label (entries ml)).
Proof.
  intros (sp & Hsp & Hsel) [Hml Hmes] Hpop.
  unfold extract_selectors. rewrite Hsp, Hsel.
  unfold populated in Hpop. rewrite Hpop. simpl.
  rewrite Hml, Hmes.
  destruct ml as [m |], mes as [[| e es] |]; reflexivity.
Qed.

Lemma contains_false (x : string) (l : list string) :
  Py.contains x l = false <-> ~ In x l.
Proof.
  unfold Py.contains. induction l as [| y l IH]; simpl.
  - tauto.
  - rewrite orb_false_iff, IH. destruct (String.eqb_spec x y); split.
    + intros [H _]. discriminate.
    + intros H. exfalso. apply H. now left.
    + intros [_ H] [Hy | Hl]; [congruence | tauto].
    + intros H. split; [reflexivity | tauto].
Qed.

Lemma structured_populated sel ml e es :
  structured sel ml (Some (e :: es)) -> populated sel = true.
Proof.
  intros [_ Hmes]. unfold populated. rewrite Hmes. simpl. apply orb_true_r.
Qed.

Lemma middle_populated sel ml (pre : list Expression) e post :
  structured sel ml (Some (pre ++ e :: post)%list) -> populated sel = true.
Proof.
  destruct pre; simpl; apply structured_populated.
Qed.

(** The clause of the entry after [pre] lands after the label clauses and
    the clauses of [pre]. *)
Lemma extract_selectors_entry pformat instance sel ml pre e post cpre c cpost :
  with_selector instance sel ->
  structured sel ml (Some (pre ++ e :: post)%list) ->
  clauses pre cpre ->
  expression_clause e = Ok c ->
  clauses post cpost ->
  extract_selectors pformat instance
  = Ok (map format_label (entries ml) ++ cpre ++ [c] ++ cpost)%list.
Proof.
  intros Hsel Hst Hpre He Hpost.
  rewrite (extract_selectors_structured pformat instance sel ml _ Hsel Hst
             (middle_populated _ _ _ _ _ Hst)).
  simpl entries. rewrite (for_expressions_app _ _ _ Hpre). simpl.
  rewrite He. simpl. rewrite (for_expressions_clauses _ _ Hpost).
  now rewrite <- !app_assoc.
Qed.

(** The failure of the entry after [pre] is the failure of the extraction. *)
Lemma extract_selectors_entry_fails pformat instance sel ml pre e post cpre x :
  with_selector instance sel ->
  structured sel ml (Some (pre ++ e :: post)%list) ->
  clauses pre cpre ->
  expression_clause e = Err x ->
  extract_selectors pformat instance = Err x.
Proof.
  intros Hsel Hst Hpre He.
  rewrite (extract_selectors_structured pformat instance sel ml _ Hsel Hst
             (middle_populated _ _ _ _ _ Hst)).
  simpl entries. rewrite (for_expressions_app _ _ _ Hpre). simpl.
  now rewrite He.
Qed.

(** The flat branch: one clause per field of the selector. *)
Lemma extract_selectors_flat_clauses pformat instance sel :
  with_selector instance sel ->
  populated sel = false ->
  extract_selectors pformat instance = Ok (map (format_entry pformat) sel).
Proof.
  intros (sp & Hsp & Hsel) Hpop.
  unfold extract_selectors. rewrite Hsp, Hsel.
  unfold populated in Hpop. now rewrite Hpop.
Qed.

(** ** The selector extractor *)

(** C3, as the code has it: for an instance whose spec has no selector the
    extractor does not fail with the descriptive message. Building the
    message calls [str.join] with two arguments, which raises [TypeError]
    before [self.fail] is reached; the message naming the group/apiVersion
    and kind is never produced. *)
Theorem extract_selectors_no_selector :
  forall pformat g v k,
    extract_selectors pformat
      {| group := g; apiVersion := v; kind := k; spec := Some {| selector := None |} |}
    = Err (Raise TypeError).
Proof.
  reflexivity.
Qed.

(** [falsy] is what [bool(v)] being false means. *)
Lemma truthy_falsy (v : option field) : truthy v = false <-> falsy v.
Proof.
  unfold falsy. split.
  - destruct v as [[s | m | [| e es]] |]; simpl; intros H;
      try discriminate H; auto.
    right. left. now rewrite (truthy_false' s H).
  - intros [-> | [-> | ->]]; reflexivity.
Qed.

(** The test [matchLabels or matchExpressions] is false exactly when both
    attributes are. *)
Lemma populated_false_iff (sel : Selector) :
  populated sel = false
  <-> falsy (getattr sel "matchLabels") /\ falsy (getattr sel "matchExpressions").
Proof.
  unfold populated. now rewrite orb_false_iff, !truthy_falsy.
Qed.

(** C6, as stated, fails: a selector whose [matchLabels] is an object
    without entries has neither field populated, yet the object is true, the
    flat branch is not taken and the result is no clause at all, where the
    flat reading gives one clause for the field [matchLabels]. *)
Lemma extract_selectors_empty_matchLabels_not_flat :
  getattr [("matchLabels", Mapping [])] "matchLabels" = Some (Mapping [])
  /\ getattr [("matchLabels", Mapping [])] "matchExpressions" = None
  /\ extract_selectors (fun _ => "{}")
       {| group := None; apiVersion := "apps/v1"; kind := "Deployment";
          spec := Some {| selector := Some [("matchLabels", Mapping [])] |} |}
     = Ok []
  /\ map (format_entry (fun _ => "{}")) [("matchLabels", Mapping [])] = ["matchLabels={}"].
Proof.
  repeat split.
Qed.

(** C6, amended: a selector that is present and whose [matchLabels] and
    [matchExpressions] are each missing, an empty list or an empty string,
    which is when the test of the code is false, is read as a flat mapping:
    the result is exactly one clause [key=value] per entry of the selector,
    in its iteration order, and nothing else. A [matchLabels] object counts
    as populated even when it has no entries, and is not read this way. *)
Theorem extract_selectors_flat :
  forall pformat instance sel,
    with_selector instance sel ->
    falsy (getattr sel "matchLabels") ->
    falsy (getattr sel "matchExpressions") ->
    extract_selectors pformat instance = Ok (map (format_entry pformat) sel)
    /\ (forall k v, format_entry pformat (k, Str v) = k ++ "=" ++ v).
Proof.
  intros pformat instance sel Hsel Hml Hmes. split.
  - apply extract_selectors_flat_clauses; [exact Hsel |].
    apply populated_false_iff. now split.
  - reflexivity.
Qed.

Lemma extract_selectors_flat_witness :
  extract_selectors (fun _ => "")
    {| group := None; apiVersion := "apps.openshift.io/v1"; kind := "DeploymentConfig";
       spec := Some {| selector := Some [("app", Str "example"); ("tier", Str "web")] |} |}
  = Ok ["app=example"; "tier=web"].
Proof.
  refine (proj1 (extract_selectors_flat (fun _ => "") _
                   [("app", Str "example"); ("tier", Str "web")] _ _ _)).
  - eexists. split; reflexivity.
  - left. reflexivity.
  - left. reflexivity.
Defined.

(** C7: with [matchLabels] and/or [matchExpressions] populated, the result
    is the [matchLabels] clauses, one [key=value] per entry in the mapping's
    order, followed by the clauses of the [matchExpressions] entries in their
    order; for matchLabels={a:"1"} and matchExpressions=[{key:"b",
    operator:"Exists"}] it is ["a=1"; "b"]. *)
Theorem extract_selectors_labels_then_expressions :
  forall pformat,
    (forall instance sel ml mes cs,
        with_selector instance sel ->
        structured sel ml mes ->
        populated sel = true ->
        clauses (entries mes) cs ->
        extract_selectors pformat instance
        = Ok (map format_label (entries ml) ++ cs)%list)
    /\ (forall g v k,
           extract_selectors pformat
             {| group := g; apiVersion := v; kind := k;
                spec := Some {| selector := Some
                  [("matchLabels", Mapping [("a", "1")]);
                   ("matchExpressions",
                    Sequence [{| key := "b"; operator := "Exists"; values := [] |}])] |} |}
           = Ok ["a=1"; "b"]).
Proof.
  intros pformat. split.
  - intros instance sel ml mes cs Hsel Hst Hpop Hcs.
    rewrite (extract_selectors_structured pformat instance sel ml mes Hsel Hst Hpop).
    apply for_expressions_clauses, Hcs.
  - reflexivity.
Qed.

Lemma extract_selectors_labels_then_expressions_witness :
  extract_selectors (fun _ => "")
    {| group := None; apiVersion := "apps/v1"; kind := "Deployment";
       spec := Some {| selector := Some
         [("matchExpressions",
           Sequence [{| key := "tier"; operator := "DoesNotExist"; values := [] |};
                     {| key := "env"; operator := "NotIn"; values := ["dev"] |}]);
          ("matchLabels", Mapping [("app", "web"); ("track", "stable")])] |} |}
  = Ok ["app=web"; "track=stable"; "!tier"; "env notin (dev)"].
Proof.
  refine (proj1 (extract_selectors_labels_then_expressions (fun _ => "")) _
            [("matchExpressions",
              Sequence [{| key := "tier"; operator := "DoesNotExist"; values := [] |};
                        {| key := "env"; operator := "NotIn"; values := ["dev"] |}]);
             ("matchLabels", Mapping [("app", "web"); ("track", "stable")])]
            (Some [("app", "web"); ("track", "stable")])
            (Some [{| key := "tier"; operator := "DoesNotExist"; values := [] |};
                   {| key := "env"; operator := "NotIn"; values := ["dev"] |}])
            ["!tier"; "env notin (dev)"] _ _ _ _).
  - eexists. split; reflexivity.
  - split; reflexivity.
  - reflexivity.
  - repeat constructor.
Defined.

(** C8: an entry of [matchExpressions] whose operator is [In] or [NotIn]
    yields the clause [key in (v1, v2, ...)], respectively
    [key notin (v1, v2, ...)]: the operator in lower case, the values joined
    with a comma and a space, in parentheses; the clause stands after the
    label clauses and the clauses of the entries before it. For
    matchExpressions=[{key:"c", operator:"In", values:["x","y"]}] the result
    is ["c in (x, y)"]. *)
Theorem extract_selectors_in_notin :
  forall pformat,
    (forall instance sel ml pre e post cpre cpost,
        with_selector instance sel ->
        structured sel ml (Some (pre ++ e :: post)%list) ->
        clauses pre cpre ->
        clauses post cpost ->
        (operator e = "In" ->
         extract_selectors pformat instance
         = Ok (map format_label (entries ml) ++ cpre
               ++ [(key e ++ " in (" ++ Py.join ", " (values e) ++ ")")%string] ++ cpost)%list)
        /\ (operator e = "NotIn" ->
            extract_selectors pformat instance
            = Ok (map format_label (entries ml) ++ cpre
                  ++ [(key e ++ " notin (" ++ Py.join ", " (values e) ++ ")")%string] ++ cpost)%list))
    /\ (forall g v k,
           extract_selectors pformat
             {| group := g; apiVersion := v; kind := k;
                spec := Some {| selector := Some
                  [("matchExpressions",
                    Sequence [{| key := "c"; operator := "In"; values := ["x"; "y"] |}])] |} |}
           = Ok ["c in (x, y)"]).
Proof.
  intros pformat. split.
  - intros instance sel ml pre e post cpre cpost Hsel Hst Hpre Hpost.
    split; intros Hop;
      apply (extract_selectors_entry pformat instance sel ml pre e post); auto;
      rewrite (expression_clause_membership e _ Hop); auto.
  - reflexivity.
Qed.

Lemma extract_selectors_in_notin_witness :
  extract_selectors (fun _ => "")
    {| group := None; apiVersion := "apps/v1"; kind := "Deployment";
       spec := Some {| selector := Some
         [("matchLabels", Mapping [("app", "web")]);
          ("matchExpressions",
           Sequence [{| key := "tier"; operator := "Exists"; values := [] |};
                     {| key := "env"; operator := "NotIn"; values := ["dev"; "qa"] |};
                     {| key := "zone"; operator := "In"; values := ["a"] |}])] |} |}
  = Ok ["app=web"; "tier"; "env notin (dev, qa)"; "zone in (a)"].
Proof.
  refine (proj2 (proj1 (extract_selectors_in_notin (fun _ => "")) _
            [("matchLabels", Mapping [("app", "web")]);
             ("matchExpressions",
              Sequence [{| key := "tier"; operator := "Exists"; values := [] |};
                        {| key := "env"; operator := "NotIn"; values := ["dev"; "qa"] |};
                        {| key := "zone"; operator := "In"; values := ["a"] |}])]
            (Some [("app", "web")])
            [{| key := "tier"; operator := "Exists"; values := [] |}]
            {| key := "env"; operator := "NotIn"; values := ["dev"; "qa"] |}
            [{| key := "zone"; operator := "In"; values := ["a"] |}]
            ["tier"] ["zone in (a)"] _ _ _ _) _).
  - eexists. split; reflexivity.
  - split; reflexivity.
  - repeat constructor.
  - repeat constructor.
  - reflexivity.
Defined.

(** C9: an entry of [matchExpressions] whose operator is none of [Exists],
    [DoesNotExist], [In], [NotIn] makes the extraction fail with the
    unsupported-operator message, which names the operator in lower case:
    the first such entry of the list is the one named, and any list holding
    such an entry fails this way. For operator "Bogus" the message names
    "bogus". *)
Theorem extract_selectors_unsupported_operator :
  forall pformat,
    (forall instance sel ml pre e post cpre,
        with_selector instance sel ->
        structured sel ml (Some (pre ++ e :: post)%list) ->
        clauses pre cpre ->
        ~ In (operator e) ["Exists"; "DoesNotExist"; "In"; "NotIn"] ->
        extract_selectors pformat instance
        = Err (FailJson ("The k8s_log module does not support the "
                         ++ Py.lower (operator e) ++ " matchExpression operator")))
    /\ (forall instance sel ml es e,
           with_selector instance sel ->
           structured sel ml (Some es) ->
           In e es ->
           ~ In (operator e) ["Exists"; "DoesNotExist"; "In"; "NotIn"] ->
           exists e',
             In e' es
             /\ ~ In (operator e') ["Exists"; "DoesNotExist"; "In"; "NotIn"]
             /\ extract_selectors pformat instance
                = Err (FailJson ("The k8s_log module does not support the "
                                 ++ Py.lower (operator e') ++ " matchExpression operator")))
    /\ (forall g v k,
           extract_selectors pformat
             {| group := g; apiVersion := v; kind := k;
                spec := Some {| selector := Some
                  [("matchExpressions",
                    Sequence [{| key := "d"; operator := "Bogus"; values := [] |}])] |} |}
           = Err (FailJson "The k8s_log module does not support the bogus matchExpression operator")).
Proof.
  intros pformat.
  assert (Hfirst : forall instance sel ml pre e post cpre,
             with_selector instance sel ->
             structured sel ml (Some (pre ++ e :: post)%list) ->
             clauses pre cpre ->
             ~ In (operator e) ["Exists"; "DoesNotExist"; "In"; "NotIn"] ->
             extract_selectors pformat instance
             = Err (FailJson ("The k8s_log module does not support the "
                              ++ Py.lower (operator e) ++ " matchExpression operator"))).
  { intros instance sel ml pre e post cpre Hsel Hst Hpre Hop.
    apply (extract_selectors_entry_fails pformat instance sel ml pre e post cpre); auto.
    apply expression_clause_unsupported. unfold supported. now apply contains_false. }
  split; [exact Hfirst | split].
  - intros instance sel ml es e Hsel Hst Hin Hop.
    destruct (first_unsupported es) as (pre & e' & post & cpre & -> & Hpre & He').
    { apply existsb_exists. exists e. split; [assumption |].
      apply negb_true_iff. unfold supported. now apply contains_false. }
    assert (Hop' : ~ In (operator e') ["Exists"; "DoesNotExist"; "In"; "NotIn"])
      by now apply contains_false.
    exists e'. split; [| split].
    + apply in_or_app. right. now left.
    + exact Hop'.
    + now apply (Hfirst instance sel ml pre e' post cpre).
  - reflexivity.
Qed.

Lemma extract_selectors_unsupported_operator_witness :
  extract_selectors (fun _ => "")
    {| group := None; apiVersion := "apps/v1"; kind := "Deployment";
       spec := Some {| selector := Some
         [("matchLabels", Mapping [("app", "web")]);
          ("matchExpressions",
           Sequence [{| key := "tier"; operator := "Exists"; values := [] |};
                     {| key := "size"; operator := "Gt"; values := ["3"] |};
                     {| key := "zone"; operator := "In"; values := ["a"] |}])] |} |}
  = Err (FailJson "The k8s_log module does not support the gt matchExpression operator").
Proof.
  refine (proj1 (extract_selectors_unsupported_operator (fun _ => "")) _
            [("matchLabels", Mapping [("app", "web")]);
             ("matchExpressions",
              Sequence [{| key := "tier"; operator := "Exists"; values := [] |};
                        {| key := "size"; operator := "Gt"; values := ["3"] |};
                        {| key := "zone"; operator := "In"; values := ["a"] |}])]
            (Some [("app", "web")])
            [{| key := "tier"; operator := "Exists"; values := [] |}]
            {| key := "size"; operator := "Gt"; values := ["3"] |}
            [{| key := "zone"; operator := "In"; values := ["a"] |}]
            ["tier"] _ _ _ _).
  - eexists. split; reflexivity.
  - split; reflexivity.
  - repeat constructor.
  - simpl. intros [H | [H | [H | [H | []]]]]; discriminate H.
Defined.

(** C10: an entry whose operator is [In] or [NotIn] and whose values are
    empty does not make the extraction fail; its clause is [key in ()],
    respectively [key notin ()]. *)
Theorem extract_selectors_in_notin_no_values :
  forall pformat instance sel ml pre e post cpre cpost,
    with_selector instance sel ->
    structured sel ml (Some (pre ++ e :: post)%list) ->
    clauses pre cpre ->
    clauses post cpost ->
    values e = [] ->
    (operator e = "In" ->
     extract_selectors pformat instance
     = Ok (map format_label (entries ml) ++ cpre ++ [(key e ++ " in ()")%string] ++ cpost)%list)
    /\ (operator e = "NotIn" ->
        extract_selectors pformat instance
        = Ok (map format_label (entries ml) ++ cpre ++ [(key e ++ " notin ()")%string] ++ cpost)%list).
Proof.
  intros pformat instance sel ml pre e post cpre cpost Hsel Hst Hpre Hpost Hvalues.
  split; intros Hop;
    apply (extract_selectors_entry pformat instance sel ml pre e post); auto;
    rewrite (expression_clause_membership e _ Hop); auto;
    rewrite Hvalues; reflexivity.
Qed.

Lemma extract_selectors_in_notin_no_values_witness :
  extract_selectors (fun _ => "")
    {| group := None; apiVersion := "apps/v1"; kind := "Deployment";
       spec := Some {| selector := Some
         [("matchExpressions",
           Sequence [{| key := "env"; operator := "In"; values := [] |}])] |} |}
  = Ok ["env in ()"].
Proof.
  refine (proj1 (extract_selectors_in_notin_no_values (fun _ => "") _
            [("matchExpressions",
              Sequence [{| key := "env"; operator := "In"; values := [] |}])]
            None [] {| key := "env"; operator := "In"; values := [] |} [] [] []
            _ _ _ _ _) _).
  - eexists. split; reflexivity.
  - split; reflexivity.
  - constructor.
  - constructor.
  - reflexivity.
  - reflexivity.
Defined.

(** ** The resource resolver *)

(** C1: the Deployment [example] in [testing], whose descriptor lacks the
    log subresource and whose selector is the flat mapping {app: example},
    with one Pod [example-1abcd] listed for [app=example] whose log is
    [hello\nworld]: the module exits with changed=false, that log and its
    two lines. *)
Theorem execute_module_deployment_example :
  forall pformat cluster api_version deployment v1_pods instance,
    get_api_client cluster = Ok tt ->
    find_resource cluster "Deployment" api_version = Ok deployment ->
    Py.contains "log" (subresources deployment) = false ->
    find_resource cluster "Pod" "v1" = Ok v1_pods ->
    get cluster deployment (Some "example") (Some "testing") = Ok instance ->
    with_selector instance [("app", Str "example")] ->
    list_pods cluster v1_pods (Some "testing") "app=example"
    = Ok [{| metadata_name := "example-1abcd" |}] ->
    log_get cluster v1_pods (Some "example-1abcd") (Some "testing") None = Ok hello_world ->
    snd (execute_module pformat cluster
           {| Params.kind := "Deployment"; Params.api_version := api_version;
              Params.name := Some "example"; Params.namespace := Some "testing";
              Params.container := None; Params.label_selectors := [] |})
    = Ok {| changed := false; log := hello_world; log_lines := ["hello"; "world"] |}.
Proof.
  intros pformat cluster api_version deployment v1_pods instance
    Hclient Hres Hlog Hpods Hget Hsel Hlist Hfetch.
  pose proof (extract_selectors_flat_clauses pformat instance _ Hsel eq_refl) as Hextract.
  unfold execute_module. simpl.
  rewrite Hclient, Hres, Hpods. simpl. rewrite Hlog. simpl.
  rewrite Hget. simpl. rewrite Hextract. simpl.
  rewrite Hlist. simpl. rewrite Hfetch. reflexivity.
Qed.

Lemma execute_module_deployment_example_witness :
  snd (execute_module (fun _ => "") example_cluster
         {| Params.kind := "Deployment"; Params.api_version := "apps/v1";
            Params.name := Some "example"; Params.namespace := Some "testing";
            Params.container := None; Params.label_selectors := [] |})
  = Ok {| changed := false; log := hello_world; log_lines := ["hello"; "world"] |}.
Proof.
  refine (execute_module_deployment_example (fun _ => "") example_cluster "apps/v1"
            apps_deployment v1_pod example_deployment _ _ _ _ _ _ _ _);
    try reflexivity.
  eexists. split; reflexivity.
Defined.

(** C2, as stated, fails: with a name and the label selectors [""] (a
    sequence that is not empty) the joined selector is the empty string, the
    head check lets the invocation through, and the module goes on to the
    cluster and fetches the log of the named Pod. *)
Lemma execute_module_name_and_blank_selector :
  Py.truthy_opt (Some "example") = true
  /\ length [""] = 1
  /\ execute_module (fun _ => "") example_cluster
       {| Params.kind := "Pod"; Params.api_version := "v1";
          Params.name := Some "example"; Params.namespace := Some "testing";
          Params.container := None; Params.label_selectors := [""] |}
     = ([GetApiClient; FindResource "Pod" "v1"; FindResource "Pod" "v1";
         LogGet v1_pod (Some "example") (Some "testing") None],
        Ok {| changed := false; log := hello_world; log_lines := ["hello"; "world"] |}).
Proof.
  repeat split.
Qed.

(** C2, amended: when [name] is set and not empty and [label_selectors] is
    neither empty nor the single selector [""] (so that the comma-joined
    selector is not empty), [execute_module] fails with the message that
    only one of name or label_selectors can be provided, and has made no
    call to the cluster. *)
Theorem execute_module_name_and_selectors :
  forall pformat cluster params n,
    Params.name params = Some n ->
    n <> "" ->
    Params.label_selectors params <> [] ->
    Params.label_selectors params <> [""] ->
    execute_module pformat cluster params
    = ([], Err (FailJson "Only one of name or label_selectors can be provided")).
Proof.
  intros pformat cluster params n Hname Hn Hnil Hblank.
  unfold execute_module. rewrite Hname. simpl.
  apply truthy_true in Hn. rewrite Hn. simpl.
  assert (Hjoin : Py.truthy (Py.join "," (Params.label_selectors params)) = true).
  { apply truthy_true. rewrite join_empty. tauto. }
  rewrite Hjoin. reflexivity.
Qed.

Lemma execute_module_name_and_selectors_witness :
  execute_module (fun _ => "") example_cluster
    {| Params.kind := "Pod"; Params.api_version := "v1";
       Params.name := Some "example"; Params.namespace := Some "testing";
       Params.container := None; Params.label_selectors := ["app=example"] |}
  = ([], Err (FailJson "Only one of name or label_selectors can be provided")).
Proof.
  refine (execute_module_name_and_selectors (fun _ => "") example_cluster
            {| Params.kind := "Pod"; Params.api_version := "v1";
               Params.name := Some "example"; Params.namespace := Some "testing";
               Params.container := None; Params.label_selectors := ["app=example"] |}
            "example" eq_refl _ _ _); discriminate.
Defined.

(** C4: when the invocation reaches the Pod list with a selector that is not
    empty, the caller's or the one derived from the named instance, and the
    list for the namespace and that selector has no item, [execute_module]
    fails with the message [No pods in namespace <namespace> matched selector
    <selector>], which holds both verbatim (a namespace that was not given
    reads [None]), and no log is fetched. *)
Theorem execute_module_no_pods :
  forall pformat cluster params v1_pods label_selector,
    validated params ->
    get_api_client cluster = Ok tt ->
    find_resource cluster "Pod" "v1" = Ok v1_pods ->
    active_selector pformat cluster params label_selector ->
    label_selector <> "" ->
    list_pods cluster v1_pods (Params.namespace params) label_selector = Ok [] ->
    snd (execute_module pformat cluster params)
    = Err (FailJson ("No pods in namespace " ++ Py.format_opt (Params.namespace params)
                     ++ " matched selector " ++ label_selector))
    /\ count is_log_fetch (fst (execute_module pformat cluster params)) = 0.
Proof.
  intros pformat cluster params v1_pods label_selector
    Hvalid Hclient Hpods Hactive Hne Hlist.
  apply truthy_true in Hne. unfold validated in Hvalid.
  unfold execute_module. rewrite Hvalid.
  destruct Hactive as [resource Hres Hlog | resource instance selectors Hres Hlog Hname Hget Hex];
    simpl; rewrite Hclient, Hres, Hpods; simpl; rewrite Hlog; simpl.
  - rewrite Hne. simpl. rewrite Hlist. simpl. split; reflexivity.
  - rewrite Hname. simpl. rewrite Hget. simpl. rewrite Hex. simpl.
    rewrite Hne. simpl. rewrite Hlist. simpl. split; reflexivity.
Qed.

Lemma execute_module_no_pods_witness :
  snd (execute_module (fun _ => "") example_cluster
         {| Params.kind := "Deployment"; Params.api_version := "apps/v1";
            Params.name := Some "example"; Params.namespace := Some "staging";
            Params.container := None; Params.label_selectors := [] |})
  = Err (FailJson "No pods in namespace staging matched selector app=example")
  /\ count is_log_fetch
       (fst (execute_module (fun _ => "") example_cluster
               {| Params.kind := "Deployment"; Params.api_version := "apps/v1";
                  Params.name := Some "example"; Params.namespace := Some "staging";
                  Params.container := None; Params.label_selectors := [] |})) = 0.
Proof.
  refine (execute_module_no_pods (fun _ => "") example_cluster
            {| Params.kind := "Deployment"; Params.api_version := "apps/v1";
               Params.name := Some "example"; Params.namespace := Some "staging";
               Params.container := None; Params.label_selectors := [] |}
            v1_pod "app=example" eq_refl eq_refl eq_refl _ _ eq_refl).
  - exact (derived (fun _ => "") example_cluster
             {| Params.kind := "Deployment"; Params.api_version := "apps/v1";
                Params.name := Some "example"; Params.namespace := Some "staging";
                Params.container := None; Params.label_selectors := [] |}
             apps_deployment example_deployment
             ["app=example"] eq_refl eq_refl eq_refl eq_refl eq_refl).
  - discriminate.
Defined.

(** C5, as stated, fails: the descriptor of a Build reports the log
    subresource and no label selector is given, yet on a cluster where the
    lookup of the v1 Pod descriptor fails the module stops there and fetches
    no log. *)
Lemma execute_module_log_resource_without_pods :
  find_resource podless_cluster "Build" "build.openshift.io/v1" = Ok openshift_build
  /\ Py.contains "log" (subresources openshift_build) = true
  /\ execute_module (fun _ => "") podless_cluster
       {| Params.kind := "Build"; Params.api_version := "build.openshift.io/v1";
          Params.name := Some "example-1"; Params.namespace := Some "testing";
          Params.container := None; Params.label_selectors := [] |}
     = ([GetApiClient; FindResource "Build" "build.openshift.io/v1"; FindResource "Pod" "v1"],
        Err (FailJson "Failed to find exact match"))
  /\ count is_log_fetch
       (fst (execute_module (fun _ => "") podless_cluster
               {| Params.kind := "Build"; Params.api_version := "build.openshift.io/v1";
                  Params.name := Some "example-1"; Params.namespace := Some "testing";
                  Params.container := None; Params.label_selectors := [] |})) = 0.
Proof.
  repeat split.
Qed.

(** C5, amended: when the descriptor of the requested resource resolves and
    reports the log subresource, the v1 Pod descriptor resolves too, and
    [label_selectors] is empty, [execute_module] makes exactly one log fetch,
    on the requested resource with the given name, and neither a get by name
    nor a list by selector. *)
Theorem execute_module_log_resource :
  forall pformat cluster params resource v1_pods,
    Params.label_selectors params = [] ->
    get_api_client cluster = Ok tt ->
    find_resource cluster (Params.kind params) (Params.api_version params) = Ok resource ->
    Py.contains "log" (subresources resource) = true ->
    find_resource cluster "Pod" "v1" = Ok v1_pods ->
    fst (execute_module pformat cluster params)
    = [GetApiClient;
       FindResource (Params.kind params) (Params.api_version params);
       FindResource "Pod" "v1";
       LogGet resource (Params.name params) (Params.namespace params)
         (if Py.truthy_opt (Params.container params) then Params.container params else None)]
    /\ count is_log_fetch (fst (execute_module pformat cluster params)) = 1
    /\ count is_get (fst (execute_module pformat cluster params)) = 0
    /\ count is_list (fst (execute_module pformat cluster params)) = 0.
Proof.
  intros pformat cluster params resource v1_pods Hnone Hclient Hres Hlog Hpods.
  assert (Htrace : fst (execute_module pformat cluster params)
                   = [GetApiClient;
                      FindResource (Params.kind params) (Params.api_version params);
                      FindResource "Pod" "v1";
                      LogGet resource (Params.name params) (Params.namespace params)
                        (if Py.truthy_opt (Params.container params)
                         then Params.container params else None)]).
  { unfold execute_module. rewrite Hnone. simpl. rewrite andb_false_r.
    simpl. rewrite Hclient, Hres, Hpods. simpl. rewrite Hlog. simpl.
    destruct (log_get cluster resource _ _ _); reflexivity. }
  rewrite Htrace. repeat split.
Qed.

Lemma execute_module_log_resource_witness :
  fst (execute_module (fun _ => "") example_cluster
         {| Params.kind := "Pod"; Params.api_version := "v1";
            Params.name := Some "example-1"; Params.namespace := Some "testing";
            Params.container := Some "web"; Params.label_selectors := [] |})
  = [GetApiClient; FindResource "Pod" "v1"; FindResource "Pod" "v1";
     LogGet v1_pod (Some "example-1") (Some "testing") (Some "web")].
Proof.
  exact (proj1 (execute_module_log_resource (fun _ => "") example_cluster
                  {| Params.kind := "Pod"; Params.api_version := "v1";
                     Params.name := Some "example-1"; Params.namespace := Some "testing";
                     Params.container := Some "web"; Params.label_selectors := [] |}
                  v1_pod v1_pod eq_refl eq_refl eq_refl eq_refl eq_refl)).
Defined.

(** * Further properties *)

(** ** The selector extractor, beyond the clauses of [In] and [NotIn] *)

Lemma for_expressions_inv (es : list Expression) :
  forall selectors cs,
    for_expressions es selectors = Ok cs ->
    exists cs', clauses es cs' /\ cs = (selectors ++ cs')%list.
Proof.
  induction es as [| e es IH]; simpl; intros selectors cs H.
  - exists []. split; [constructor |]. rewrite app_nil_r. congruence.
  - destruct (expression_clause e) as [c | x] eqn:He; simpl in H; [| discriminate].
    destruct (IH _ _ H) as (cs' & Hcs' & ->).
    exists (c :: cs'). split; [now constructor |]. now rewrite <- app_assoc.
Qed.

Lemma for_expressions_ok_iff (es : list Expression) :
  forall selectors,
    (exists cs, for_expressions es selectors = Ok cs)
    <-> forallb (fun e => supported (operator e)) es = true.
Proof.
  induction es as [| e es IH]; simpl; intros selectors.
  - split; eauto.
  - destruct (supported (operator e)) eqn:He; simpl.
    + destruct (expression_clause_supported e He) as [c ->]. simpl. apply IH.
    + rewrite (expression_clause_unsupported e He). simpl.
      split; [intros [cs H] |]; discriminate.
Qed.

Lemma getattr_In (sel : Selector) (name : string) (v : field) :
  getattr sel name = Some v -> In (name, v) sel.
Proof.
  induction sel as [| [k w] rest IH]; simpl; [discriminate |].
  destruct (String.eqb_spec k name) as [-> | _].
  - intros [= ->]. now left.
  - intros H. right. auto.
Qed.

(** An entry whose operator is [Exists] gives the bare key, one whose
    operator is [DoesNotExist] gives the key after an exclamation mark;
    the values of the entry play no part. *)
Theorem extract_selectors_exists_doesnotexist :
  forall pformat instance sel ml pre e post cpre cpost,
    with_selector instance sel ->
    structured sel ml (Some (pre ++ e :: post)%list) ->
    clauses pre cpre ->
    clauses post cpost ->
    (operator e = "Exists" ->
     extract_selectors pformat instance
     = Ok (map format_label (entries ml) ++ cpre ++ [key e] ++ cpost)%list)
    /\ (operator e = "DoesNotExist" ->
        extract_selectors pformat instance
        = Ok (map format_label (entries ml) ++ cpre ++ [("!" ++ key e)%string] ++ cpost)%list).
Proof.
  intros pformat instance sel ml pre e post cpre cpost Hsel Hst Hpre Hpost.
  split; intros Hop;
    apply (extract_selectors_entry pformat instance sel ml pre e post); auto;
    unfold expression_clause; rewrite Hop; reflexivity.
Qed.

Lemma extract_selectors_exists_doesnotexist_witness :
  extract_selectors (fun _ => "")
    {| group := None; apiVersion := "apps/v1"; kind := "Deployment";
       spec := Some {| selector := Some
         [("matchExpressions",
           Sequence [{| key := "canary"; operator := "DoesNotExist"; values := ["ignored"] |};
                     {| key := "tier"; operator := "Exists"; values := [] |}])] |} |}
  = Ok ["!canary"; "tier"].
Proof.
  refine (proj2 (extract_selectors_exists_doesnotexist (fun _ => "") _
            [("matchExpressions",
              Sequence [{| key := "canary"; operator := "DoesNotExist"; values := ["ignored"] |};
                        {| key := "tier"; operator := "Exists"; values := [] |}])]
            None []
            {| key := "canary"; operator := "DoesNotExist"; values := ["ignored"] |}
            [{| key := "tier"; operator := "Exists"; values := [] |}]
            [] ["tier"] _ _ _ _) _).
  - eexists. split; reflexivity.
  - split; reflexivity.
  - constructor.
  - repeat constructor.
  - reflexivity.
Defined.

(** For a structured selector the extraction returns clauses exactly when
    the operator of every entry of [matchExpressions] is one of [Exists],
    [DoesNotExist], [In], [NotIn], spelled in this case. *)
Theorem extract_selectors_succeeds_iff_supported :
  forall pformat instance sel ml mes,
    with_selector instance sel ->
    structured sel ml mes ->
    populated sel = true ->
    (exists cs, extract_selectors pformat instance = Ok cs)
    <-> forallb (fun e => Py.contains (operator e) ["Exists"; "DoesNotExist"; "In"; "NotIn"])
          (entries mes) = true.
Proof.
  intros pformat instance sel ml mes Hsel Hst Hpop.
  rewrite (extract_selectors_structured pformat instance sel ml mes Hsel Hst Hpop).
  apply for_expressions_ok_iff.
Qed.

Lemma extract_selectors_succeeds_iff_supported_witness :
  (exists cs,
      extract_selectors (fun _ => "")
        {| group := None; apiVersion := "apps/v1"; kind := "Deployment";
           spec := Some {| selector := Some
             [("matchExpressions",
               Sequence [{| key := "tier"; operator := "exists"; values := [] |}])] |} |}
      = Ok cs)
  <-> forallb (fun e => Py.contains (operator e) ["Exists"; "DoesNotExist"; "In"; "NotIn"])
        [{| key := "tier"; operator := "exists"; values := [] |}] = true.
Proof.
  refine (extract_selectors_succeeds_iff_supported (fun _ => "") _
            [("matchExpressions",
              Sequence [{| key := "tier"; operator := "exists"; values := [] |}])]
            None (Some [{| key := "tier"; operator := "exists"; values := [] |}]) _ _ _).
  - eexists. split; reflexivity.
  - split; reflexivity.
  - reflexivity.
Defined.

(** The extraction gives one clause per entry: for a flat selector as many
    clauses as the selector has fields, for a structured one as many as
    [matchLabels] and [matchExpressions] have entries together. *)
Theorem extract_selectors_one_clause_per_entry :
  forall pformat instance sel cs,
    with_selector instance sel ->
    extract_selectors pformat instance = Ok cs ->
    (populated sel = false -> length cs = length sel)
    /\ (forall ml mes,
           populated sel = true ->
           structured sel ml mes ->
           length cs = length (entries ml) + length (entries mes)).
Proof.
  intros pformat instance sel cs Hsel Hcs. split.
  - intros Hpop.
    pose proof (extract_selectors_flat_clauses pformat instance sel Hsel Hpop) as Hflat.
    rewrite Hflat in Hcs. injection Hcs as <-. apply length_map.
  - intros ml mes Hpop Hst.
    rewrite (extract_selectors_structured pformat instance sel ml mes Hsel Hst Hpop) in Hcs.
    destruct (for_expressions_inv _ _ _ Hcs) as (cs' & Hcs' & ->).
    rewrite length_app, length_map. f_equal.
    symmetry. exact (Forall2_length Hcs').
Qed.

Lemma extract_selectors_one_clause_per_entry_witness :
  length ["app=web"; "track=stable"; "!tier"] = 2 + 1.
Proof.
  refine (proj2 (extract_selectors_one_clause_per_entry (fun _ => "")
            {| group := None; apiVersion := "apps/v1"; kind := "Deployment";
               spec := Some {| selector := Some
                 [("matchLabels", Mapping [("app", "web"); ("track", "stable")]);
                  ("matchExpressions",
                   Sequence [{| key := "tier"; operator := "DoesNotExist"; values := [] |}])] |} |}
            [("matchLabels", Mapping [("app", "web"); ("track", "stable")]);
             ("matchExpressions",
              Sequence [{| key := "tier"; operator := "DoesNotExist"; values := [] |}])]
            ["app=web"; "track=stable"; "!tier"] _ _)
            (Some [("app", "web"); ("track", "stable")])
            (Some [{| key := "tier"; operator := "DoesNotExist"; values := [] |}]) _ _).
  - eexists. split; reflexivity.
  - reflexivity.
  - reflexivity.
  - split; reflexivity.
Defined.

(** A selector with no [matchLabels] whose [matchExpressions] is an empty
    list takes the flat branch: the extraction does not return an empty list
    of clauses but a clause for the field [matchExpressions] itself. *)
Theorem extract_selectors_empty_expressions_read_flat :
  forall pformat instance sel,
    with_selector instance sel ->
    getattr sel "matchLabels" = None ->
    getattr sel "matchExpressions" = Some (Sequence []) ->
    exists cs,
      extract_selectors pformat instance = Ok cs
      /\ In ("matchExpressions=" ++ pformat (Sequence [])) cs.
Proof.
  intros pformat instance sel Hsel Hml Hmes.
  assert (Hpop : populated sel = false) by (unfold populated; now rewrite Hml, Hmes).
  pose proof (extract_selectors_flat_clauses pformat instance sel Hsel Hpop) as Hflat.
  exists (map (format_entry pformat) sel). split; [exact Hflat |].
  apply getattr_In in Hmes.
  exact (in_map (format_entry pformat) sel _ Hmes).
Qed.

Lemma extract_selectors_empty_expressions_read_flat_witness :
  exists cs,
    extract_selectors (fun _ => "[]")
      {| group := None; apiVersion := "apps/v1"; kind := "Deployment";
         spec := Some {| selector := Some [("matchExpressions", Sequence [])] |} |}
    = Ok cs
    /\ In "matchExpressions=[]" cs.
Proof.
  refine (extract_selectors_empty_expressions_read_flat (fun _ => "[]") _
            [("matchExpressions", Sequence [])] _ _ _).
  - eexists. split; reflexivity.
  - reflexivity.
  - reflexivity.
Defined.

(** In the structured branch only [matchLabels] and [matchExpressions] are
    read: two instances whose selectors agree on them give the same result,
    whatever other fields the selectors hold and in whatever order. *)
Theorem extract_selectors_reads_two_fields :
  forall pformat instance instance' sel sel' ml mes,
    with_selector instance sel ->
    with_selector instance' sel' ->
    structured sel ml mes ->
    structured sel' ml mes ->
    populated sel = true ->
    extract_selectors pformat instance = extract_selectors pformat instance'.
Proof.
  intros pformat instance instance' sel sel' ml mes Hsel Hsel' Hst Hst' Hpop.
  assert (Hpop' : populated sel' = true).
  { unfold populated in *. destruct Hst as [H1 H2], Hst' as [H1' H2'].
    now rewrite H1', H2', <- H1, <- H2. }
  rewrite (extract_selectors_structured pformat instance sel ml mes Hsel Hst Hpop).
  now rewrite (extract_selectors_structured pformat instance' sel' ml mes Hsel' Hst' Hpop').
Qed.

Lemma extract_selectors_reads_two_fields_witness :
  extract_selectors (fun _ => "")
    {| group := None; apiVersion := "apps/v1"; kind := "Deployment";
       spec := Some {| selector := Some [("matchLabels", Mapping [("app", "web")])] |} |}
  = extract_selectors (fun _ => "")
      {| group := None; apiVersion := "batch/v1"; kind := "Job";
         spec := Some {| selector := Some
           [("tier", Str "db"); ("matchLabels", Mapping [("app", "web")])] |} |}.
Proof.
  refine (extract_selectors_reads_two_fields (fun _ => "") _ _
            [("matchLabels", Mapping [("app", "web")])]
            [("tier", Str "db"); ("matchLabels", Mapping [("app", "web")])]
            (Some [("app", "web")]) None _ _ _ _ _).
  - eexists. split; reflexivity.
  - eexists. split; reflexivity.
  - split; reflexivity.
  - split; reflexivity.
  - reflexivity.
Defined.

(** ** Lines of a log *)

Lemma split_newline_join (s : string) :
  Py.join (String Py.newline "") (Py.split_newline s) = s.
Proof.
  unfold Py.join. induction s as [| c s IH]; [reflexivity |].
  simpl Py.split_newline.
  destruct (Ascii.eqb_spec c Py.newline) as [-> | _].
  - pose proof (split_newline_not_nil s) as Hne.
    destruct (Py.split_newline s) as [| line rest]; [contradiction |].
    change (String.concat (String Py.newline "") ("" :: line :: rest))
      with (String Py.newline (String.concat (String Py.newline "") (line :: rest))).
    now rewrite IH.
  - pose proof (split_newline_not_nil s) as Hne.
    destruct (Py.split_newline s) as [| line rest]; [contradiction |].
    rewrite <- IH. destruct rest; reflexivity.
Qed.

Lemma split_newline_lines (s : string) :
  Forall (fun line => occurrences Py.newline line = 0) (Py.split_newline s).
Proof.
  induction s as [| c s IH]; simpl.
  - repeat constructor.
  - destruct (Ascii.eqb c Py.newline) eqn:Hc.
    + constructor; [reflexivity | exact IH].
    + destruct (Py.split_newline s) as [| line rest]; constructor.
      * simpl. now rewrite Hc.
      * constructor.
      * simpl. rewrite Hc. now inversion IH.
      * now inversion IH.
Qed.

Lemma split_newline_length (s : string) :
  length (Py.split_newline s) = S (occurrences Py.newline s).
Proof.
  induction s as [| c s IH]; simpl; [reflexivity |].
  destruct (Ascii.eqb c Py.newline).
  - simpl. now rewrite IH.
  - pose proof (split_newline_not_nil s) as Hne.
    destruct (Py.split_newline s) as [| line rest]; [contradiction |].
    exact IH.
Qed.

(** ** Every run of the resolver *)

(** Case analysis on a run: on the head check, on the answer of each call
    and on each test of [execute_module], in the order of the source. *)
Ltac run_step :=
  match goal with
  | |- context [match ?x with _ => _ end] =>
      lazymatch x with
      | context [match _ with _ => _ end] => fail
      | _ => destruct x eqn:?
      end
  end.

Ltac run_cases :=
  unfold execute_module;
  cbv beta iota zeta delta [bind perform lift ret fail];
  repeat (run_step; cbv beta iota zeta delta [bind perform lift ret fail fst snd]).

Ltac use_answers :=
  unfold failure_of;
  repeat match goal with H : _ = _ |- _ => rewrite H end.

Lemma gated_split (cluster : Cluster) (trace pre post : list call) (c : call) :
  gated cluster trace = true ->
  trace = (pre ++ c :: post)%list ->
  post <> [] ->
  call_failure cluster c = None.
Proof.
  revert trace. induction pre as [| a pre IH]; intros trace Hg -> Hpost.
  - destruct post as [| b post]; [contradiction |]. simpl in Hg.
    destruct (call_failure cluster c); [discriminate | reflexivity].
  - apply (IH (pre ++ c :: post)%list); auto.
    simpl in Hg. destruct (pre ++ c :: post)%list eqn:E.
    + destruct pre; discriminate.
    + rewrite <- E in *. destruct (call_failure cluster a); [discriminate | exact Hg].
Qed.

Lemma execute_module_trace_gated pformat cluster params :
  gated cluster (fst (execute_module pformat cluster params)) = true.
Proof.
  run_cases; simpl; use_answers; reflexivity.
Qed.

(** No call follows a failed call: in the trace of any run, every call but
    the last one was answered without an error. *)
Theorem execute_module_stops_at_failed_call :
  forall pformat cluster params pre c post,
    fst (execute_module pformat cluster params) = (pre ++ c :: post)%list ->
    post <> [] ->
    call_failure cluster c = None.
Proof.
  intros pformat cluster params pre c post Htrace Hpost.
  exact (gated_split cluster _ pre post c
           (execute_module_trace_gated pformat cluster params) Htrace Hpost).
Qed.

(** Every run makes its calls in the order of the source: the client, the
    descriptors, the get by name, the list by selector, the log fetch. It
    makes at most six calls, of which at most one get, one list and one log
    fetch. *)
Theorem execute_module_calls_in_order :
  forall pformat cluster params,
    nondecreasing (map phase (fst (execute_module pformat cluster params))) = true
    /\ length (fst (execute_module pformat cluster params)) <= 6
    /\ count is_get (fst (execute_module pformat cluster params)) <= 1
    /\ count is_list (fst (execute_module pformat cluster params)) <= 1
    /\ count is_log_fetch (fst (execute_module pformat cluster params)) <= 1.
Proof.
  intros pformat cluster params.
  run_cases; simpl; repeat split; repeat constructor.
Qed.

(** Whenever the module exits with a result, [changed] is false and
    [log_lines] are the lines of [log]: joined with newlines they give [log]
    back, no line holds a newline, and there is one more line than [log] has
    newlines (so one empty line for an empty log). *)
Theorem execute_module_exit_json :
  forall pformat cluster params r,
    snd (execute_module pformat cluster params) = Ok r ->
    changed r = false
    /\ Py.join (String Py.newline "") (log_lines r) = log r
    /\ Forall (fun line => occurrences Py.newline line = 0) (log_lines r)
    /\ length (log_lines r) = S (occurrences Py.newline (log r)).
Proof.
  intros pformat cluster params r. 
  assert (Hshape : snd (execute_module pformat cluster params) = Ok r ->
                   changed r = false /\ log_lines r = Py.split_newline (log r)).
  { run_cases; intros H; try discriminate H; injection H as <-; split; reflexivity. }
  intros H. destruct (Hshape H) as [Hchanged Hlines].
  rewrite Hlines. split; [exact Hchanged |].
  split; [apply split_newline_join |].
  split; [apply split_newline_lines | apply split_newline_length].
Qed.

(** Whenever the module exits with a result, its [log] is what the cluster
    answered to the last call of the run, which is its only log fetch, made
    in the namespace of the parameters with the container as query
    parameter. *)
Theorem execute_module_returns_fetched_log :
  forall pformat cluster params r,
    snd (execute_module pformat cluster params) = Ok r ->
    exists pre resource name,
      fst (execute_module pformat cluster params)
      = (pre ++ [LogGet resource name (Params.namespace params) (query_container params)])%list
      /\ log_get cluster resource name (Params.namespace params) (query_container params)
         = Ok (log r)
      /\ count is_log_fetch pre = 0.
Proof.
  intros pformat cluster params r. unfold query_container.
  run_cases; intros H; try discriminate H; injection H as <-; simpl;
    match goal with
    | |- exists pre resource name, ?t = _ /\ _ =>
        exists (removelast t); do 2 eexists; simpl; repeat split; eassumption
    end.
Qed.

Lemma execute_module_stops_at_failed_call_witness :
  call_failure example_cluster (FindResource "Pod" "v1") = None.
Proof.
  refine (execute_module_stops_at_failed_call (fun _ => "") example_cluster
            {| Params.kind := "Deployment"; Params.api_version := "apps/v1";
               Params.name := Some "example"; Params.namespace := Some "testing";
               Params.container := None; Params.label_selectors := [] |}
            [GetApiClient; FindResource "Deployment" "apps/v1"]
            (FindResource "Pod" "v1")
            [Get apps_deployment (Some "example") (Some "testing");
             ListPods v1_pod (Some "testing") "app=example";
             LogGet v1_pod (Some "example-1abcd") (Some "testing") None] _ _).
  - reflexivity.
  - discriminate.
Defined.

Lemma execute_module_exit_json_witness :
  false = false
  /\ Py.join (String Py.newline "") ["hello"; "world"] = hello_world
  /\ Forall (fun line => occurrences Py.newline line = 0) ["hello"; "world"]
  /\ length ["hello"; "world"] = S (occurrences Py.newline hello_world).
Proof.
  exact (execute_module_exit_json (fun _ => "") example_cluster
           {| Params.kind := "Deployment"; Params.api_version := "apps/v1";
              Params.name := Some "example"; Params.namespace := Some "testing";
              Params.container := None; Params.label_selectors := [] |}
           {| changed := false; log := hello_world; log_lines := ["hello"; "world"] |}
           eq_refl).
Defined.

Lemma execute_module_returns_fetched_log_witness :
  exists pre resource name,
    fst (execute_module (fun _ => "") example_cluster
           {| Params.kind := "Pod"; Params.api_version := "v1";
              Params.name := Some "example-1"; Params.namespace := Some "testing";
              Params.container := Some "web"; Params.label_selectors := [] |})
    = (pre ++ [LogGet resource name (Some "testing") (Some "web")])%list
    /\ log_get example_cluster resource name (Some "testing") (Some "web") = Ok hello_world
    /\ count is_log_fetch pre = 0.
Proof.
  exact (execute_module_returns_fetched_log (fun _ => "") example_cluster
           {| Params.kind := "Pod"; Params.api_version := "v1";
              Params.name := Some "example-1"; Params.namespace := Some "testing";
              Params.container := Some "web"; Params.label_selectors := [] |}
           {| changed := false; log := hello_world; log_lines := ["hello"; "world"] |}
           eq_refl).
Defined.

(** Whenever the module ends with an error, the error is one of the three
    messages of [execute_module] (the one for no matching Pod naming the
    namespace and the selector in force), or the error of the selector
    extractor on the instance the run fetched by name, or the error the
    cluster answered to the last call of the run, unchanged. *)
Theorem execute_module_failure_provenance :
  forall pformat cluster params e,
    snd (execute_module pformat cluster params) = Err e ->
    e = FailJson "Only one of name or label_selectors can be provided"
    \/ e = FailJson "name must be provided for resources that do not support the log subresource"
    \/ (exists label_selector,
           active_selector pformat cluster params label_selector
           /\ e = FailJson ("No pods in namespace " ++ Py.format_opt (Params.namespace params)
                            ++ " matched selector " ++ label_selector))
    \/ (exists resource instance,
           find_resource cluster (Params.kind params) (Params.api_version params) = Ok resource
           /\ get cluster resource (Params.name params) (Params.namespace params) = Ok instance
           /\ In (Get resource (Params.name params) (Params.namespace params))
                 (fst (execute_module pformat cluster params))
           /\ extract_selectors pformat instance = Err e)
    \/ (exists pre c,
           fst (execute_module pformat cluster params) = (pre ++ [c])%list
           /\ call_failure cluster c = Some e).
Proof.
  intros pformat cluster params e.
  run_cases; intros H; try discriminate H; injection H as <-; simpl;
    first
      [ left; reflexivity
      | right; left; reflexivity
      | right; right; left; eexists; split; [| reflexivity];
        first [ eapply derived; try eassumption; try reflexivity;
                [ apply negb_true_iff; assumption | apply negb_false_iff; assumption ]
              | eapply caller_supplied; [first [reflexivity | eassumption]
                                        | apply negb_false_iff; assumption] ]
      | right; right; right; left; do 2 eexists;
        split; [reflexivity |];
        split; [eassumption |];
        split; [simpl; tauto | eassumption]
      | right; right; right; right;
        match goal with
        | |- exists pre c, ?t = _ /\ _ =>
            exists (removelast t), (last t GetApiClient); simpl;
            split; [reflexivity | use_answers; reflexivity]
        end ].
Qed.

Lemma execute_module_failure_provenance_witness :
  Raise TypeError = FailJson "Only one of name or label_selectors can be provided"
  \/ Raise TypeError
     = FailJson "name must be provided for resources that do not support the log subresource"
  \/ (exists label_selector,
         active_selector (fun _ => "") failing_cluster
           {| Params.kind := "Deployment"; Params.api_version := "apps/v1";
              Params.name := Some "other"; Params.namespace := Some "testing";
              Params.container := None; Params.label_selectors := [] |}
           label_selector
         /\ Raise TypeError
            = FailJson ("No pods in namespace " ++ Py.format_opt (Some "testing")
                        ++ " matched selector " ++ label_selector))
  \/ (exists resource instance,
         find_resource failing_cluster "Deployment" "apps/v1" = Ok resource
         /\ get failing_cluster resource (Some "other") (Some "testing") = Ok instance
         /\ In (Get resource (Some "other") (Some "testing"))
               (fst (execute_module (fun _ => "") failing_cluster
                       {| Params.kind := "Deployment"; Params.api_version := "apps/v1";
                          Params.name := Some "other"; Params.namespace := Some "testing";
                          Params.container := None; Params.label_selectors := [] |}))
         /\ extract_selectors (fun _ => "") instance = Err (Raise TypeError))
  \/ (exists pre c,
         fst (execute_module (fun _ => "") failing_cluster
                {| Params.kind := "Deployment"; Params.api_version := "apps/v1";
                   Params.name := Some "other"; Params.namespace := Some "testing";
                   Params.container := None; Params.label_selectors := [] |})
         = (pre ++ [c])%list
         /\ call_failure failing_cluster c = Some (Raise TypeError)).
Proof.
  exact (execute_module_failure_provenance (fun _ => "") failing_cluster
           {| Params.kind := "Deployment"; Params.api_version := "apps/v1";
              Params.name := Some "other"; Params.namespace := Some "testing";
              Params.container := None; Params.label_selectors := [] |}
           (Raise TypeError) eq_refl).
Defined.

(** Any log fetch of a run is made in the namespace of the parameters, with
    the container as query parameter when one is given and not empty and
    without one otherwise, and on the v1 Pod descriptor or on the requested
    resource when that has the log subresource: never on a resource without
    it that is not the Pod descriptor. *)
Theorem execute_module_log_fetch_target :
  forall pformat cluster params resource name namespace container,
    In (LogGet resource name namespace container)
       (fst (execute_module pformat cluster params)) ->
    namespace = Params.namespace params
    /\ container = query_container params
    /\ (find_resource cluster "Pod" "v1" = Ok resource
        \/ (find_resource cluster (Params.kind params) (Params.api_version params) = Ok resource
            /\ Py.contains "log" (subresources resource) = true)).
Proof.
  intros pformat cluster params resource name namespace container.
  unfold query_container.
  run_cases; simpl; intros H;
    repeat match goal with
           | H : _ \/ _ |- _ => destruct H as [H | H]
           | H : False |- _ => destruct H
           end;
    try discriminate H;
    inversion H; subst; repeat split;
    first [ left; reflexivity
          | right; split; [reflexivity | apply negb_false_iff; assumption] ].
Qed.

(** Any list by selector of a run is a list of v1 Pods, whatever the kind
    requested, in the namespace of the parameters, with a selector that is
    not empty: the caller's selectors joined with commas for a resource with
    the log subresource, the extracted clauses joined with commas for one
    without. *)
Theorem execute_module_list_target :
  forall pformat cluster params resource namespace label_selector,
    In (ListPods resource namespace label_selector)
       (fst (execute_module pformat cluster params)) ->
    find_resource cluster "Pod" "v1" = Ok resource
    /\ namespace = Params.namespace params
    /\ label_selector <> ""
    /\ active_selector pformat cluster params label_selector.
Proof.
  intros pformat cluster params resource namespace label_selector.
  run_cases; simpl; intros H;
    repeat match goal with
           | H : _ \/ _ |- _ => destruct H as [H | H]
           | H : False |- _ => destruct H
           end;
    try discriminate H;
    inversion H; subst;
    (split; [reflexivity |]); (split; [reflexivity |]);
    (split; [apply truthy_true; assumption |]);
    first [ eapply derived; try eassumption;
            [ apply negb_true_iff; assumption | apply negb_false_iff; assumption ]
          | eapply caller_supplied; [eassumption | apply negb_false_iff; assumption] ].
Qed.

Lemma execute_module_log_fetch_target_witness :
  Some "testing" = Some "testing"
  /\ None = query_container
              {| Params.kind := "Deployment"; Params.api_version := "apps/v1";
                 Params.name := Some "example"; Params.namespace := Some "testing";
                 Params.container := Some ""; Params.label_selectors := [] |}
  /\ (find_resource example_cluster "Pod" "v1" = Ok v1_pod
      \/ (find_resource example_cluster "Deployment" "apps/v1" = Ok v1_pod
          /\ Py.contains "log" (subresources v1_pod) = true)).
Proof.
  refine (execute_module_log_fetch_target (fun _ => "") example_cluster
            {| Params.kind := "Deployment"; Params.api_version := "apps/v1";
               Params.name := Some "example"; Params.namespace := Some "testing";
               Params.container := Some ""; Params.label_selectors := [] |}
            v1_pod (Some "example-1abcd") (Some "testing") None _).
  simpl. do 5 right. left. reflexivity.
Defined.

Lemma execute_module_list_target_witness :
  find_resource example_cluster "Pod" "v1" = Ok v1_pod
  /\ Some "testing" = Some "testing"
  /\ "app=example" <> ""
  /\ active_selector (fun _ => "") example_cluster
       {| Params.kind := "Deployment"; Params.api_version := "apps/v1";
          Params.name := Some "example"; Params.namespace := Some "testing";
          Params.container := None; Params.label_selectors := [] |}
       "app=example".
Proof.
  refine (execute_module_list_target (fun _ => "") example_cluster
            {| Params.kind := "Deployment"; Params.api_version := "apps/v1";
               Params.name := Some "example"; Params.namespace := Some "testing";
               Params.container := None; Params.label_selectors := [] |}
            v1_pod (Some "testing") "app=example" _).
  simpl. do 4 right. left. reflexivity.
Defined.

(** ** Particular runs of the resolver *)

(** For a resource without the log subresource and no name (or an empty
    one), label selectors given or not, the module fails with the message
    that a name must be provided, after the client and the two descriptor
    lookups and without a get, a list or a log fetch. *)
Theorem execute_module_name_required :
  forall pformat cluster params resource v1_pods,
    Py.truthy_opt (Params.name params) = false ->
    get_api_client cluster = Ok tt ->
    find_resource cluster (Params.kind params) (Params.api_version params) = Ok resource ->
    Py.contains "log" (subresources resource) = false ->
    find_resource cluster "Pod" "v1" = Ok v1_pods ->
    execute_module pformat cluster params
    = ([GetApiClient;
        FindResource (Params.kind params) (Params.api_version params);
        FindResource "Pod" "v1"],
       Err (FailJson
              "name must be provided for resources that do not support the log subresource")).
Proof.
  intros pformat cluster params resource v1_pods Hname Hclient Hres Hlog Hpods.
  unfold execute_module. rewrite Hname. simpl.
  rewrite Hclient, Hres, Hpods. simpl. rewrite Hlog. reflexivity.
Qed.

Lemma execute_module_name_required_witness :
  execute_module (fun _ => "") example_cluster
    {| Params.kind := "Deployment"; Params.api_version := "apps/v1";
       Params.name := None; Params.namespace := Some "testing";
       Params.container := None; Params.label_selectors := ["app=example"] |}
  = ([GetApiClient; FindResource "Deployment" "apps/v1"; FindResource "Pod" "v1"],
     Err (FailJson
            "name must be provided for resources that do not support the log subresource")).
Proof.
  exact (execute_module_name_required (fun _ => "") example_cluster
           {| Params.kind := "Deployment"; Params.api_version := "apps/v1";
              Params.name := None; Params.namespace := Some "testing";
              Params.container := None; Params.label_selectors := ["app=example"] |}
           apps_deployment v1_pod eq_refl eq_refl eq_refl eq_refl eq_refl).
Defined.

(** When the Pod list for the active selector has items, the log fetched is
    that of the first item, on the v1 Pod descriptor, whatever [name] was
    given: the run ends with the list and that log fetch, its result is the
    fetched log with its lines, and a failure of the fetch is the failure of
    the module. *)
Theorem execute_module_first_pod :
  forall pformat cluster params v1_pods label_selector first rest,
    validated params ->
    get_api_client cluster = Ok tt ->
    find_resource cluster "Pod" "v1" = Ok v1_pods ->
    active_selector pformat cluster params label_selector ->
    label_selector <> "" ->
    list_pods cluster v1_pods (Params.namespace params) label_selector = Ok (first :: rest) ->
    snd (execute_module pformat cluster params)
    = obind (log_get cluster v1_pods (Some (metadata_name first)) (Params.namespace params)
               (query_container params))
            (fun text => Ok {| changed := false; log := text;
                               log_lines := Py.split_newline text |})
    /\ exists pre,
        fst (execute_module pformat cluster params)
        = (pre ++ [ListPods v1_pods (Params.namespace params) label_selector;
                   LogGet v1_pods (Some (metadata_name first)) (Params.namespace params)
                     (query_container params)])%list
        /\ count is_list pre = 0
        /\ count is_log_fetch pre = 0.
Proof.
  intros pformat cluster params v1_pods label_selector first rest
    Hvalid Hclient Hpods Hactive Hne Hlist.
  apply truthy_true in Hne. unfold validated in Hvalid. unfold query_container.
  unfold execute_module. rewrite Hvalid.
  destruct Hactive as [resource Hres Hlog | resource instance selectors Hres Hlog Hname Hget Hex];
    simpl; rewrite Hclient, Hres, Hpods; simpl; rewrite Hlog; simpl.
  - rewrite Hne. simpl. rewrite Hlist. simpl.
    destruct (log_get cluster v1_pods _ _ _); simpl;
      (split; [reflexivity |]);
      exists [GetApiClient; FindResource (Params.kind params) (Params.api_version params);
              FindResource "Pod" "v1"]; repeat split.
  - rewrite Hname. simpl. rewrite Hget. simpl. rewrite Hex. simpl.
    rewrite Hne. simpl. rewrite Hlist. simpl.
    destruct (log_get cluster v1_pods _ _ _); simpl;
      (split; [reflexivity |]);
      exists [GetApiClient; FindResource (Params.kind params) (Params.api_version params);
              FindResource "Pod" "v1";
              Get resource (Params.name params) (Params.namespace params)]; repeat split.
Qed.

Lemma execute_module_first_pod_witness :
  snd (execute_module (fun _ => "") failing_cluster
         {| Params.kind := "Pod"; Params.api_version := "v1";
            Params.name := None; Params.namespace := Some "testing";
            Params.container := None; Params.label_selectors := ["app=web"; "tier=db"] |})
  = Ok {| changed := false; log := hello_world; log_lines := ["hello"; "world"] |}.
Proof.
  refine (proj1 (execute_module_first_pod (fun _ => "") failing_cluster
            {| Params.kind := "Pod"; Params.api_version := "v1";
               Params.name := None; Params.namespace := Some "testing";
               Params.container := None; Params.label_selectors := ["app=web"; "tier=db"] |}
            v1_pod "app=web,tier=db" {| metadata_name := "web-1" |}
            [{| metadata_name := "web-2" |}] eq_refl eq_refl eq_refl _ _ eq_refl)).
  - exact (caller_supplied (fun _ => "") failing_cluster
             {| Params.kind := "Pod"; Params.api_version := "v1";
                Params.name := None; Params.namespace := Some "testing";
                Params.container := None; Params.label_selectors := ["app=web"; "tier=db"] |}
             v1_pod eq_refl eq_refl).
  - discriminate.
Defined.

(** When the clauses extracted from the named instance join to the empty
    string (no clause, or the single clause of an [Exists] entry with an empty
    key), no Pod is listed: the module fetches the log of the v1 Pod that has
    the name given for the resource. *)
Theorem execute_module_blank_derived_selector :
  forall pformat cluster params resource v1_pods instance selectors,
    validated params ->
    get_api_client cluster = Ok tt ->
    find_resource cluster (Params.kind params) (Params.api_version params) = Ok resource ->
    Py.contains "log" (subresources resource) = false ->
    find_resource cluster "Pod" "v1" = Ok v1_pods ->
    Py.truthy_opt (Params.name params) = true ->
    get cluster resource (Params.name params) (Params.namespace params) = Ok instance ->
    extract_selectors pformat instance = Ok selectors ->
    Py.join "," selectors = "" ->
    fst (execute_module pformat cluster params)
    = [GetApiClient;
       FindResource (Params.kind params) (Params.api_version params);
       FindResource "Pod" "v1";
       Get resource (Params.name params) (Params.namespace params);
       LogGet v1_pods (Params.name params) (Params.namespace params) (query_container params)].
Proof.
  intros pformat cluster params resource v1_pods instance selectors
    Hvalid Hclient Hres Hlog Hpods Hname Hget Hex Hjoin.
  unfold validated in Hvalid. unfold query_container.
  unfold execute_module. rewrite Hvalid. simpl.
  rewrite Hclient, Hres, Hpods. simpl. rewrite Hlog. simpl.
  rewrite Hname. simpl. rewrite Hget. simpl. rewrite Hex. simpl.
  rewrite Hjoin. simpl.
  destruct (log_get cluster v1_pods _ _ _); reflexivity.
Qed.

Lemma execute_module_blank_derived_selector_witness :
  fst (execute_module (fun _ => "") failing_cluster
         {| Params.kind := "Deployment"; Params.api_version := "apps/v1";
            Params.name := Some "example"; Params.namespace := Some "testing";
            Params.container := None; Params.label_selectors := [] |})
  = [GetApiClient; FindResource "Deployment" "apps/v1"; FindResource "Pod" "v1";
     Get apps_deployment (Some "example") (Some "testing");
     LogGet v1_pod (Some "example") (Some "testing") None].
Proof.
  exact (execute_module_blank_derived_selector (fun _ => "") failing_cluster
           {| Params.kind := "Deployment"; Params.api_version := "apps/v1";
              Params.name := Some "example"; Params.namespace := Some "testing";
              Params.container := None; Params.label_selectors := [] |}
           apps_deployment v1_pod bare_deployment []
           eq_refl eq_refl eq_refl eq_refl eq_refl eq_refl eq_refl eq_refl eq_refl).
Defined.

(** A failure of the selector extractor on the named instance is the
    failure of the module: the run ends after the get by name, with the
    extractor's error, and neither lists Pods nor fetches a log. *)
Theorem execute_module_extraction_failure :
  forall pformat cluster params resource v1_pods instance e,
    validated params ->
    get_api_client cluster = Ok tt ->
    find_resource cluster (Params.kind params) (Params.api_version params) = Ok resource ->
    Py.contains "log" (subresources resource) = false ->
    find_resource cluster "Pod" "v1" = Ok v1_pods ->
    Py.truthy_opt (Params.name params) = true ->
    get cluster resource (Params.name params) (Params.namespace params) = Ok instance ->
    extract_selectors pformat instance = Err e ->
    execute_module pformat cluster params
    = ([GetApiClient;
        FindResource (Params.kind params) (Params.api_version params);
        FindResource "Pod" "v1";
        Get resource (Params.name params) (Params.namespace params)],
       Err e).
Proof.
  intros pformat cluster params resource v1_pods instance e
    Hvalid Hclient Hres Hlog Hpods Hname Hget Hex.
  unfold validated in Hvalid.
  unfold execute_module. rewrite Hvalid. simpl.
  rewrite Hclient, Hres, Hpods. simpl. rewrite Hlog. simpl.
  rewrite Hname. simpl. rewrite Hget. simpl. rewrite Hex. reflexivity.
Qed.

Lemma execute_module_extraction_failure_witness :
  execute_module (fun _ => "") failing_cluster
    {| Params.kind := "Deployment"; Params.api_version := "apps/v1";
       Params.name := Some "other"; Params.namespace := Some "testing";
       Params.container := None; Params.label_selectors := [] |}
  = ([GetApiClient; FindResource "Deployment" "apps/v1"; FindResource "Pod" "v1";
      Get apps_deployment (Some "other") (Some "testing")],
     Err (Raise TypeError)).
Proof.
  exact (execute_module_extraction_failure (fun _ => "") failing_cluster
           {| Params.kind := "Deployment"; Params.api_version := "apps/v1";
              Params.name := Some "other"; Params.namespace := Some "testing";
              Params.container := None; Params.label_selectors := [] |}
           apps_deployment v1_pod
           {| group := None; apiVersion := "apps/v1"; kind := "Deployment";
              spec := Some {| selector := None |} |}
           (Raise TypeError)
           eq_refl eq_refl eq_refl eq_refl eq_refl eq_refl eq_refl eq_refl).
Defined.

(** ** The argument specification *)

Lemma dict_get_setitem {V : Type} (d : dict V) (k k' : string) (v : V) :
  dict_get (setitem d k v) k' = if k =? k' then Some v else dict_get d k'.
Proof.
  induction d as [| [k0 v0] rest IH]; simpl.
  - reflexivity.
  - destruct (String.eqb_spec k0 k) as [-> | Hne]; simpl.
    + destruct (k =? k'); reflexivity.
    + rewrite IH. destruct (String.eqb_spec k0 k') as [-> | _]; [| reflexivity].
      destruct (String.eqb_spec k k'); [congruence | reflexivity].
Qed.

(** Whatever the shared options are, [argspec] holds the six options of the
    module with their specifications: [kind] defaults to [Pod], [api_version]
    to [v1] with the aliases [api] and [version], [label_selectors] is a list
    of [str] that defaults to the empty list, and [name], [namespace] and
    [container] have no default. A shared option of the same name is
    replaced. *)
Theorem argspec_module_options :
  forall AUTH_ARG_SPEC,
    dict_get (argspec AUTH_ARG_SPEC) "kind" = Some [("default", AStr "Pod")]
    /\ dict_get (argspec AUTH_ARG_SPEC) "api_version"
       = Some [("default", AStr "v1"); ("aliases", AList ["api"; "version"])]
    /\ dict_get (argspec AUTH_ARG_SPEC) "name" = Some []
    /\ dict_get (argspec AUTH_ARG_SPEC) "namespace" = Some []
    /\ dict_get (argspec AUTH_ARG_SPEC) "container" = Some []
    /\ dict_get (argspec AUTH_ARG_SPEC) "label_selectors"
       = Some [("type", AStr "list"); ("elements", AStr "str"); ("default", AList [])].
Proof.
  intros AUTH_ARG_SPEC. unfold argspec, update, module_options. simpl fold_left.
  repeat split; rewrite !dict_get_setitem; reflexivity.
Qed.

(** Every shared option whose name is not one of the module's six is in
    [argspec] as it is in [AUTH_ARG_SPEC], and [argspec] holds no other
    option. *)
Theorem argspec_keeps_auth_options :
  forall AUTH_ARG_SPEC opt,
    ~ In opt ["kind"; "api_version"; "name"; "namespace"; "container"; "label_selectors"] ->
    dict_get (argspec AUTH_ARG_SPEC) opt = dict_get AUTH_ARG_SPEC opt.
Proof.
  intros AUTH_ARG_SPEC opt Hnot.
  unfold argspec, update, module_options. simpl fold_left.
  rewrite !dict_get_setitem.
  repeat match goal with
         | |- context [String.eqb ?k opt] =>
             destruct (String.eqb_spec k opt) as [E | _];
             [exfalso; apply Hnot; rewrite <- E; simpl; tauto |]
         end.
  reflexivity.
Qed.

Lemma argspec_keeps_auth_options_witness :
  dict_get (argspec [("kubeconfig", [("type", AStr "path")]);
                     ("api_key", [("no_log", ABool true)])]) "api_key"
  = Some [("no_log", ABool true)].
Proof.
  refine (argspec_keeps_auth_options
            [("kubeconfig", [("type", AStr "path")]); ("api_key", [("no_log", ABool true)])]
            "api_key" _).
  simpl. intros [H | [H | [H | [H | [H | [H | []]]]]]]; discriminate H.
Defined.
